(** * movielist worker: a shallow embedding of [worker.js]

    The worker is a stateless request router.  It inspects the query
    string of an inbound request, classifies it into an action, and either
    answers directly (provider list, embed URL, errors) or performs one
    outbound GET against the metadata API and relays its JSON.

    Strings are byte strings (the UTF-8 encoding of the JavaScript
    strings); [null]/[undefined] are [None]. *)

From Stdlib Require Import Bool List Arith Lia.
From Stdlib Require Import Ascii String.
Import ListNotations.

Open Scope string_scope.

(** ** JavaScript value conventions used by the worker *)

Module JS.

(** Truthiness of a value that is either a string or [null]/[undefined]:
    only the non-empty strings are truthy. *)
Definition truthy (v : option string) : bool :=
  match v with
  | Some s => negb (s =? "")
  | None => false
  end.

(** [a || d] where [a] is a string or [null]/[undefined] and [d] a string. *)
Definition or_else (a : option string) (d : string) : string :=
  match a with
  | Some s => if s =? "" then d else s
  | None => d
  end.

(** String conversion performed by a template literal on a value that is a
    string or [null]. *)
Definition to_string (v : option string) : string :=
  match v with
  | Some s => s
  | None => "null"
  end.

(** [v === lit] for [v] a string or [null]. *)
Definition strict_eq (v : option string) (lit : string) : bool :=
  match v with
  | Some s => s =? lit
  | None => false
  end.

Definition hex_digit (n : nat) : ascii :=
  nth n (list_ascii_of_string "0123456789ABCDEF") "0"%char.

(** Bytes that [encodeURIComponent] leaves alone:
    [A-Z a-z 0-9 - _ . ! ~ * ' ( )]. *)
Definition uri_unreserved (c : ascii) : bool :=
  let n := nat_of_ascii c in
  (Nat.leb 65 n && Nat.leb n 90) || (Nat.leb 97 n && Nat.leb n 122)
  || (Nat.leb 48 n && Nat.leb n 57)
  || existsb (Ascii.eqb c) (list_ascii_of_string "-_.!~*'()").

Definition percent_byte (c : ascii) : string :=
  let n := nat_of_ascii c in
  String "%" (String (hex_digit (n / 16)) (String (hex_digit (n mod 16)) "")).

(** [encodeURIComponent] on a well-formed string: every byte of the UTF-8
    encoding outside the unreserved set becomes [%XX]. *)
Fixpoint encodeURIComponent_str (s : string) : string :=
  match s with
  | EmptyString => EmptyString
  | String c rest =>
      (if uri_unreserved c then String c "" else percent_byte c)
        ++ encodeURIComponent_str rest
  end.

Definition encodeURIComponent (v : option string) : string :=
  encodeURIComponent_str (to_string v).

End JS.

(** ** URLSearchParams: an ordered list of name/value pairs *)

Module URLSearchParams.

Definition t := list (string * string).

Definition has (p : t) (name : string) : bool :=
  existsb (fun kv => fst kv =? name) p.

(** [get] returns the value of the first pair with that name, else [null]. *)
Fixpoint get (p : t) (name : string) : option string :=
  match p with
  | [] => None
  | (k, v) :: rest => if k =? name then Some v else get rest name
  end.

End URLSearchParams.

(** ** JSON values placed in response bodies *)

#[warnings="-register-all"] Inductive json : Type :=
| JNull
| JBool (b : bool)
| JString (s : string)
| JArray (items : list json)
| JObject (fields : list (string * json)).

Inductive jkind : Type := KString | KBoolean | KOther.

Definition kind_of (v : json) : jkind :=
  match v with
  | JString _ => KString
  | JBool _ => KBoolean
  | _ => KOther
  end.

Definition jkind_eqb (a b : jkind) : bool :=
  match a, b with
  | KString, KString | KBoolean, KBoolean | KOther, KOther => true
  | _, _ => false
  end.

Fixpoint field (fs : list (string * json)) (name : string) : option json :=
  match fs with
  | [] => None
  | (k, v) :: rest => if k =? name then Some v else field rest name
  end.

(** [record_shape sh v]: [v] is an object whose keys are exactly those of
    [sh], each holding a value of the listed kind. *)
Definition record_shape (sh : list (string * jkind)) (v : json) : bool :=
  match v with
  | JObject fs =>
      Nat.eqb (List.length fs) (List.length sh)
      && forallb (fun e =>
                    match field fs (fst e) with
                    | Some x => jkind_eqb (kind_of x) (snd e)
                    | None => false
                    end) sh
  | _ => false
  end.

(** ** Environment bindings *)

Record Env : Type := mkEnv {
  TMDB_API_KEY : option string;
  VIDSRC_CC_URL : option string;
  VIDROCK_NET_URL : option string;
  VIDSRC_ME_URL : option string;
  VIDFAST_PRO_URL : option string
}.

(** The environment with nothing bound ([{}]). *)
Definition empty_env : Env := mkEnv None None None None None.

(** ** generateEmbedUrl *)

(** Result of the property read [providerConfigs[provider]] on the object
    literal: an own property (one of the four domains), a member inherited
    from [Object.prototype], or [undefined]. *)
Inductive prop_read : Type :=
| OwnString (s : string)
| Inherited
| Undefined.

Definition object_prototype_members : list string :=
  [ "constructor"; "hasOwnProperty"; "isPrototypeOf"; "propertyIsEnumerable";
    "toLocaleString"; "toString"; "valueOf"; "__proto__";
    "__defineGetter__"; "__defineSetter__"; "__lookupGetter__";
    "__lookupSetter__" ].

Definition providerConfigs (env : Env) (provider : string) : prop_read :=
  if provider =? "vidsrc.cc" then
    OwnString (JS.or_else (VIDSRC_CC_URL env) "https://vidsrc.cc/v2/embed/")
  else if provider =? "vidrock.net" then
    OwnString (JS.or_else (VIDROCK_NET_URL env) "https://vidrock.net/")
  else if provider =? "vidsrc.me" then
    OwnString (JS.or_else (VIDSRC_ME_URL env) "https://vidsrc.me/embed/")
  else if provider =? "vidfast.pro" then
    OwnString (JS.or_else (VIDFAST_PRO_URL env) "https://vidfast.pro/")
  else if existsb (String.eqb provider) object_prototype_members then Inherited
  else Undefined.

Definition prop_truthy (r : prop_read) : bool :=
  match r with
  | OwnString s => negb (s =? "")
  | Inherited => true
  | Undefined => false
  end.

(** The base URL as interpolated by the template literals; in the four
    [case] arms the read is always an own string. *)
Definition prop_text (r : prop_read) : string :=
  match r with
  | OwnString s => s
  | Inherited => "[object]"
  | Undefined => "undefined"
  end.

Definition generateEmbedUrl (provider imdbId type : string) (env : Env)
  : option string :=
  let baseUrl := providerConfigs env provider in
  if negb (prop_truthy baseUrl) then None
  else
    let b := prop_text baseUrl in
    if provider =? "vidsrc.cc" then
      Some (if type =? "tv" then b ++ "tv/" ++ imdbId
            else b ++ "movie/" ++ imdbId)
    else if provider =? "vidrock.net" then
      Some (if type =? "tv" then b ++ "tv/" ++ imdbId
            else b ++ "movie/" ++ imdbId)
    else if provider =? "vidsrc.me" then
      Some (b ++ type ++ "/" ++ imdbId)
    else if provider =? "vidfast.pro" then
      Some (b ++ type ++ "/" ++ imdbId ++ "?autoPlay=true")
    else None.

Definition known_providers : list string :=
  [ "vidsrc.cc"; "vidrock.net"; "vidsrc.me"; "vidfast.pro" ].

(** ** The request handler *)

Inductive Action : Type :=
| ActError
| Details
| Credits
| Popular
| Search
| FindByImdbId
| GetExternalIds
| Embed
| GetProviders.

(** The actions whose [case] arm only sets [tmdbApiUrl] and breaks out of the
    [switch] towards the outbound call. *)
Definition outbound (a : Action) : bool :=
  match a with
  | Details | Credits | Popular | Search | FindByImdbId | GetExternalIds => true
  | _ => false
  end.

Record Request : Type := mkRequest {
  method : string;
  searchParams : URLSearchParams.t
}.

Definition corsHeaders : list (string * string) :=
  [ ("Access-Control-Allow-Origin", "*");
    ("Access-Control-Allow-Methods", "GET, HEAD, OPTIONS");
    ("Access-Control-Allow-Headers", "Content-Type");
    ("X-Content-Type-Options", "nosniff") ].

(** [{ ...corsHeaders, 'Content-Type': 'application/json' }] *)
Definition jsonHeaders : list (string * string) :=
  (corsHeaders ++ [ ("Content-Type", "application/json") ])%list.

Definition videoProviderList : list json :=
  [ JObject [("name", JString "alpha"); ("domain", JString "vidsrc.cc");
             ("sandbox", JBool true)];
    JObject [("name", JString "bravo"); ("domain", JString "vidrock.net");
             ("sandbox", JBool true)];
    JObject [("name", JString "charlie"); ("domain", JString "vidsrc.me");
             ("sandbox", JBool true)];
    JObject [("name", JString "delta"); ("domain", JString "vidfast.pro");
             ("sandbox", JBool true)] ].

(** The [if]/[else if] chain that assigns [action]. *)
Definition action (params : URLSearchParams.t) : Action :=
  let has := URLSearchParams.has params in
  let get := URLSearchParams.get params in
  if has "details" then Details
  else if has "credits" then Credits
  else if has "popular" then Popular
  else if has "query" then Search
  else if has "imdb_id" && negb (JS.strict_eq (get "action") "embed")
  then FindByImdbId
  else if has "tmdb_id" then GetExternalIds
  else if JS.strict_eq (get "action") "embed" then Embed
  else if JS.strict_eq (get "action") "getProviders" then GetProviders
  else ActError.

Definition mediaType (params : URLSearchParams.t) : string :=
  if JS.strict_eq (URLSearchParams.get params "type") "tv" then "tv"
  else "movie".

(** The value of [tmdbApiUrl] after the [switch]: set by the six arms that
    break, and still the initial [''] otherwise. *)
Definition tmdbApiUrl (act : Action) (params : URLSearchParams.t)
           (apiKey : string) : string :=
  let get := URLSearchParams.get params in
  let mediaType := mediaType params in
  match act with
  | Details =>
      "https://api.themoviedb.org/3/" ++ mediaType ++ "/"
        ++ JS.to_string (get "details") ++ "?api_key=" ++ apiKey
        ++ "&language=en-US"
  | Credits =>
      "https://api.themoviedb.org/3/" ++ mediaType ++ "/"
        ++ JS.to_string (get "credits") ++ "/credits?api_key=" ++ apiKey
        ++ "&language=en-US"
  | Popular =>
      let page := JS.or_else (get "page") "1" in
      let popularMediaType := JS.or_else (get "media_type") "movie" in
      "https://api.themoviedb.org/3/" ++ popularMediaType
        ++ "/popular?api_key=" ++ apiKey ++ "&language=en-US&page=" ++ page
  | Search =>
      "https://api.themoviedb.org/3/search/multi?api_key=" ++ apiKey
        ++ "&query=" ++ JS.encodeURIComponent (get "query")
        ++ "&language=en-US&page=1"
  | FindByImdbId =>
      "https://api.themoviedb.org/3/find/" ++ JS.to_string (get "imdb_id")
        ++ "?api_key=" ++ apiKey ++ "&external_source=imdb_id"
  | GetExternalIds =>
      "https://api.themoviedb.org/3/" ++ mediaType ++ "/"
        ++ JS.to_string (get "tmdb_id") ++ "/external_ids?api_key=" ++ apiKey
  | _ => ""
  end.

Module Worker.
Section Handler.

(** The platform: the global [fetch], the [json()] method of the response
    it resolves to, and the reasons with which either may reject. *)
Variables UpstreamResponse Data Rejection : Type.
Variable global_fetch : string -> Rejection + UpstreamResponse.
Variable response_json : UpstreamResponse -> Rejection + Data.

(** A response body: [null], [JSON.stringify] of a value built by the
    worker, or [JSON.stringify] of the parsed upstream payload. *)
Inductive Body : Type :=
| BodyNull
| BodyJson (v : json)
| BodyData (data : Data).

Record Response : Type := mkResponse {
  status : nat;
  headers : list (string * string);
  body : Body
}.

Inductive thrown : Type :=
| LogicError (message : string)
| Rejected (reason : Rejection).

Inductive completion (A : Type) : Type :=
| Normal (a : A)
| Throw (e : thrown).
Arguments Normal {A} a.
Arguments Throw {A} e.

(** What leaves the [switch]: a [break] towards the outbound call, or a
    [return] of a finished response. *)
Inductive switch_exit : Type :=
| Break
| Return (r : Response).

Definition missingKeyResponse : Response :=
  mkResponse 500 jsonHeaders
    (BodyJson (JObject
       [("error",
         JString "Server configuration error: TMDB_API_KEY secret not set.")])).

Definition embedUrlResponse (embedUrl : string) : Response :=
  mkResponse 200 jsonHeaders
    (BodyJson (JObject [("embedUrl", JString embedUrl)])).

Definition invalidProviderResponse : Response :=
  mkResponse 400 jsonHeaders
    (BodyJson (JObject
       [("error",
         JString "Invalid provider or unable to generate embed URL.")])).

(** The [case 'getProviders'] arm, also entered by fall-through from
    [case 'embed']. *)
Definition providersResponse : Response :=
  mkResponse 200 jsonHeaders
    (BodyJson (JObject [("providers", JArray videoProviderList)])).

Definition badRequestResponse : Response :=
  mkResponse 400 jsonHeaders
    (BodyJson (JObject
       [("error", JString "Missing or invalid query parameters.")])).

Definition upstreamFailureResponse : Response :=
  mkResponse 502 jsonHeaders
    (BodyJson (JObject
       [("error", JString "Failed to fetch data from TMDB API.")])).

Definition switch (act : Action) (params : URLSearchParams.t) (env : Env)
  : switch_exit :=
  match act with
  | Details | Credits | Popular | Search | FindByImdbId | GetExternalIds =>
      Break
  | Embed =>
      let provider := URLSearchParams.get params "provider" in
      let imdbId := URLSearchParams.get params "imdb_id" in
      if JS.truthy provider && JS.truthy imdbId then
        match generateEmbedUrl (JS.to_string provider) (JS.to_string imdbId)
                               (mediaType params) env with
        | Some embedUrl =>
            if negb (embedUrl =? "") then Return (embedUrlResponse embedUrl)
            else Return invalidProviderResponse
        | None => Return invalidProviderResponse
        end
      else Return providersResponse
  | GetProviders => Return providersResponse
  | ActError => Return badRequestResponse
  end.

(** The body of the [try] block. *)
Definition try_block (url : string) : completion Response :=
  if negb (JS.truthy (Some url)) then
    Throw (LogicError "Internal logic error: API URL not set.")
  else
    match global_fetch url with
    | inl reason => Throw (Rejected reason)
    | inr tmdbResponse =>
        match response_json tmdbResponse with
        | inl reason => Throw (Rejected reason)
        | inr data => Normal (mkResponse 200 jsonHeaders (BodyData data))
        end
    end.

Definition catch_block (error : thrown) : Response :=
  upstreamFailureResponse.

Definition fetch (request : Request) (env : Env) : completion Response :=
  if method request =? "OPTIONS" then
    Normal (mkResponse 200 corsHeaders BodyNull)
  else
    let apiKey := TMDB_API_KEY env in
    if negb (JS.truthy apiKey) then Normal missingKeyResponse
    else
      let params := searchParams request in
      let act := action params in
      match switch act params env with
      | Return r => Normal r
      | Break =>
          match try_block (tmdbApiUrl act params (JS.to_string apiKey)) with
          | Normal r => Normal r
          | Throw error => Normal (catch_block error)
          end
      end.

End Handler.

Arguments BodyNull {Data}.
Arguments BodyJson {Data} v.
Arguments BodyData {Data} data.
Arguments mkResponse {Data} status headers body.
Arguments status {Data} r.
Arguments headers {Data} r.
Arguments body {Data} r.
Arguments LogicError {Rejection} message.
Arguments Rejected {Rejection} reason.
Arguments Normal {Rejection A} a.
Arguments Throw {Rejection A} e.
Arguments Break {Data}.
Arguments Return {Data} r.
Arguments missingKeyResponse {Data}.
Arguments embedUrlResponse {Data} embedUrl.
Arguments invalidProviderResponse {Data}.
Arguments providersResponse {Data}.
Arguments badRequestResponse {Data}.
Arguments upstreamFailureResponse {Data}.
Arguments switch {Data} act params env.
Arguments try_block {UpstreamResponse Data Rejection} global_fetch
  response_json url.
Arguments catch_block {Data Rejection} error.
Arguments fetch {UpstreamResponse Data Rejection} global_fetch
  response_json request env.

(** The outbound call fails: [fetch] rejects, or it resolves and [json()]
    rejects. *)
Definition upstream_fails {UpstreamResponse Data Rejection : Type}
           (global_fetch : string -> Rejection + UpstreamResponse)
           (response_json : UpstreamResponse -> Rejection + Data)
           (url : string) : bool :=
  match global_fetch url with
  | inl _ => true
  | inr tmdbResponse =>
      match response_json tmdbResponse with
      | inl _ => true
      | inr _ => false
      end
  end.

End Worker.

(** ** Vocabulary of the specification *)

(** The priority order as the specification words it: an ordered list of
    triggers with the action each selects. *)
Definition spec_triggers (params : URLSearchParams.t) : list (bool * Action) :=
  let has := URLSearchParams.has params in
  let act := URLSearchParams.get params "action" in
  [ (has "details", Details);
    (has "credits", Credits);
    (has "popular", Popular);
    (has "query", Search);
    (has "imdb_id" && negb (JS.strict_eq act "embed"), FindByImdbId);
    (has "tmdb_id", GetExternalIds);
    (JS.strict_eq act "embed", Embed);
    (JS.strict_eq act "getProviders", GetProviders) ].

(** First match wins; none is the error action. *)
Fixpoint spec_first_match (l : list (bool * Action)) : Action :=
  match l with
  | [] => ActError
  | (true, a) :: _ => a
  | (false, _) :: rest => spec_first_match rest
  end.

(** Number of triggers a request matches. *)
Definition spec_matches (params : URLSearchParams.t) : nat :=
  List.length (filter fst (spec_triggers params)).

(** The descriptor shape as the specification writes it. *)
Definition spec_descriptor_shape : list (string * jkind) :=
  [ ("name", KString); ("domain", KString); ("sandboxed", KBoolean) ].

(** The shape of the entries the worker serves. *)
Definition descriptor_shape : list (string * jkind) :=
  [ ("name", KString); ("domain", KString); ("sandbox", KBoolean) ].



Definition ends_with (s suffix : string) : Prop :=
  exists before, s = before ++ suffix.

(** ** Sample platforms and inputs *)

Module Sample.

(** A platform whose network is down. *)
Definition offline (url : string) : unit + unit := inl tt.

(** A platform that answers every URL with a body that is not JSON. *)
Definition online (url : string) : unit + unit := inr tt.
Definition not_json (r : unit) : unit + unit := inl tt.

(** A body that parses, to a payload we do not look into. *)
Definition parsed (r : unit) : unit + unit := inr tt.

Definition env : Env := mkEnv (Some "k3y") None None None None.

Definition GET (q : URLSearchParams.t) : Request := mkRequest "GET" q.

End Sample.

(** * Properties *)

(** ** Strings and JavaScript conventions *)

Lemma or_else_nonempty (a : option string) (d : string) :
  d <> "" -> JS.or_else a d <> "".
Proof.
  intros Hd. unfold JS.or_else.
  destruct a as [s|]; [|exact Hd].
  destruct (String.eqb_spec s ""); assumption.
Qed.


Lemma truthy_absent_or_empty (v : option string) :
  v = None \/ v = Some "" -> JS.truthy v = false.
Proof. intros [-> | ->]; reflexivity. Qed.

Lemma nonempty_neqb (s : string) : s <> "" -> negb (s =? "") = true.
Proof. intros H. apply (proj2 (String.eqb_neq s "")) in H. now rewrite H. Qed.

Lemma get_of_has (p : URLSearchParams.t) (name : string) :
  URLSearchParams.has p name = true ->
  exists v, URLSearchParams.get p name = Some v.
Proof.
  induction p as [|[k v] rest IH]; simpl; [discriminate|].
  destruct (k =? name); simpl; eauto.
Qed.



(** ** generateEmbedUrl, provider by provider *)

Ltac own_base :=
  unfold generateEmbedUrl, providerConfigs; cbn [String.eqb Ascii.eqb Bool.eqb];
  cbn [prop_truthy prop_text];
  rewrite nonempty_neqb by (apply or_else_nonempty; discriminate);
  cbn [negb].

Lemma generateEmbedUrl_vidsrc_cc (imdbId type : string) (env : Env) :
  generateEmbedUrl "vidsrc.cc" imdbId type env =
  let baseUrl := JS.or_else (VIDSRC_CC_URL env) "https://vidsrc.cc/v2/embed/" in
  Some (if type =? "tv" then baseUrl ++ "tv/" ++ imdbId
        else baseUrl ++ "movie/" ++ imdbId).
Proof. own_base. reflexivity. Qed.

Lemma generateEmbedUrl_vidrock_net (imdbId type : string) (env : Env) :
  generateEmbedUrl "vidrock.net" imdbId type env =
  let baseUrl := JS.or_else (VIDROCK_NET_URL env) "https://vidrock.net/" in
  Some (if type =? "tv" then baseUrl ++ "tv/" ++ imdbId
        else baseUrl ++ "movie/" ++ imdbId).
Proof. own_base. reflexivity. Qed.

Lemma generateEmbedUrl_vidsrc_me (imdbId type : string) (env : Env) :
  generateEmbedUrl "vidsrc.me" imdbId type env =
  Some (JS.or_else (VIDSRC_ME_URL env) "https://vidsrc.me/embed/"
          ++ type ++ "/" ++ imdbId).
Proof. own_base. reflexivity. Qed.

Lemma generateEmbedUrl_vidfast_pro (imdbId type : string) (env : Env) :
  generateEmbedUrl "vidfast.pro" imdbId type env =
  Some (JS.or_else (VIDFAST_PRO_URL env) "https://vidfast.pro/"
          ++ type ++ "/" ++ imdbId ++ "?autoPlay=true").
Proof. own_base. reflexivity. Qed.

Lemma generateEmbedUrl_unknown (provider imdbId type : string) (env : Env) :
  ~ In provider known_providers ->
  generateEmbedUrl provider imdbId type env = None.
Proof.
  intros Hnot. unfold generateEmbedUrl, providerConfigs.
  assert (Hneq : forall d, In d known_providers -> (provider =? d) = false).
  { intros d Hd. apply String.eqb_neq. intros ->. exact (Hnot Hd). }
  rewrite !Hneq by (simpl; tauto).
  destruct (negb _); reflexivity.
Qed.

(** ** Action classification *)

Lemma action_first_match (params : URLSearchParams.t) :
  action params = spec_first_match (spec_triggers params).
Proof.
  unfold action, spec_triggers. cbn [spec_first_match].
  repeat match goal with
         | |- context [if ?c then _ else _] => destruct c
         end; reflexivity.
Qed.

(** C1. Whatever triggers a request matches -- in particular when it matches
    two or more -- its action is the first match in the order details,
    credits, popular, query, imdb_id (unless action=embed), tmdb_id,
    action=embed, action=getProviders, and the error action when nothing
    matches.  So a request with both [details] and [query] is a details
    request, and a request whose triggers are [imdb_id] and
    [action=getProviders] is a findByImdbId request. *)
Theorem action_priority_order (params : URLSearchParams.t) :
  action params = spec_first_match (spec_triggers params)
  /\ (URLSearchParams.has params "details" = true ->
      URLSearchParams.has params "query" = true ->
      2 <= spec_matches params /\ action params = Details)
  /\ (URLSearchParams.has params "details" = false ->
      URLSearchParams.has params "credits" = false ->
      URLSearchParams.has params "popular" = false ->
      URLSearchParams.has params "query" = false ->
      URLSearchParams.has params "imdb_id" = true ->
      URLSearchParams.get params "action" = Some "getProviders" ->
      2 <= spec_matches params /\ action params = FindByImdbId).
Proof.
  split; [apply action_first_match|]. split.
  - intros Hd Hq. unfold spec_matches, spec_triggers, action.
    rewrite Hd, Hq. cbn [filter fst].
    split; [|reflexivity].
    repeat match goal with
           | |- context [if ?c then _ else _] => destruct c
           end; simpl; lia.
  - intros Hd Hc Hp Hq Hi Ha. unfold spec_matches, spec_triggers, action.
    rewrite Hd, Hc, Hp, Hq, Hi, Ha. cbn.
    split; [|reflexivity].
    destruct (URLSearchParams.has params "tmdb_id"); simpl; lia.
Qed.

Lemma action_priority_order_witness :
  action [("query", "dune"); ("details", "438631")] = Details
  /\ action [("action", "getProviders"); ("imdb_id", "tt1160419")]
     = FindByImdbId.
Proof.
  split.
  - exact (proj2 (proj1 (proj2 (action_priority_order
             [("query", "dune"); ("details", "438631")]))
             eq_refl eq_refl)).
  - exact (proj2 (proj2 (proj2 (action_priority_order
             [("action", "getProviders"); ("imdb_id", "tt1160419")]))
             eq_refl eq_refl eq_refl eq_refl eq_refl eq_refl)).
Defined.

(** ** generateEmbedUrl *)

(** C5. With no override bound, the vidsrc.cc movie URL for tt123 is exactly
    https://vidsrc.cc/v2/embed/movie/tt123, the tv URL ends in tv/tt123, and
    the vidfast.pro movie URL ends in movie/tt123?autoPlay=true. *)
Theorem generateEmbedUrl_examples :
  generateEmbedUrl "vidsrc.cc" "tt123" "movie" empty_env
  = Some "https://vidsrc.cc/v2/embed/movie/tt123"
  /\ (exists u, generateEmbedUrl "vidsrc.cc" "tt123" "tv" empty_env = Some u
                /\ ends_with u "tv/tt123")
  /\ (exists u, generateEmbedUrl "vidfast.pro" "tt123" "movie" empty_env = Some u
                /\ ends_with u "movie/tt123?autoPlay=true").
Proof.
  split; [reflexivity|]. split.
  - eexists. split; [reflexivity|].
    exists "https://vidsrc.cc/v2/embed/". reflexivity.
  - eexists. split; [reflexivity|].
    exists "https://vidfast.pro/". reflexivity.
Qed.

(** C10. Only vidsrc.cc and vidrock.net normalise the media type: any type
    other than tv gives the segment movie.  vidsrc.me and vidfast.pro
    interpolate the type as given (so anime yields .../anime/<imdbId>).  For
    the types movie and tv all four give {baseUrl}{type}/{imdbId}, with
    ?autoPlay=true appended for vidfast.pro. *)
Theorem generateEmbedUrl_type_handling (imdbId type : string) (env : Env) :
  let cc := JS.or_else (VIDSRC_CC_URL env) "https://vidsrc.cc/v2/embed/" in
  let rock := JS.or_else (VIDROCK_NET_URL env) "https://vidrock.net/" in
  let me := JS.or_else (VIDSRC_ME_URL env) "https://vidsrc.me/embed/" in
  let fast := JS.or_else (VIDFAST_PRO_URL env) "https://vidfast.pro/" in
  (type <> "tv" ->
     generateEmbedUrl "vidsrc.cc" imdbId type env
     = Some (cc ++ "movie/" ++ imdbId)
     /\ generateEmbedUrl "vidrock.net" imdbId type env
        = Some (rock ++ "movie/" ++ imdbId))
  /\ generateEmbedUrl "vidsrc.me" imdbId type env
     = Some (me ++ type ++ "/" ++ imdbId)
  /\ generateEmbedUrl "vidfast.pro" imdbId type env
     = Some (fast ++ type ++ "/" ++ imdbId ++ "?autoPlay=true")
  /\ generateEmbedUrl "vidsrc.me" imdbId "anime" env
     = Some (me ++ "anime/" ++ imdbId)
  /\ generateEmbedUrl "vidfast.pro" imdbId "anime" env
     = Some (fast ++ "anime/" ++ imdbId ++ "?autoPlay=true")
  /\ (type = "movie" \/ type = "tv" ->
        generateEmbedUrl "vidsrc.cc" imdbId type env
        = Some (cc ++ type ++ "/" ++ imdbId)
        /\ generateEmbedUrl "vidrock.net" imdbId type env
           = Some (rock ++ type ++ "/" ++ imdbId)).
Proof.
  intros cc rock me fast.
  rewrite generateEmbedUrl_vidsrc_cc, generateEmbedUrl_vidrock_net,
    !generateEmbedUrl_vidsrc_me, !generateEmbedUrl_vidfast_pro.
  cbv zeta. fold cc rock me fast.
  repeat split.
  - apply String.eqb_neq in H. now rewrite H.
  - apply String.eqb_neq in H. now rewrite H.
  - destruct H as [-> | ->]; reflexivity.
  - destruct H as [-> | ->]; reflexivity.
Qed.

Lemma generateEmbedUrl_type_handling_witness :
  generateEmbedUrl "vidsrc.cc" "tt123" "anime" empty_env
  = Some "https://vidsrc.cc/v2/embed/movie/tt123"
  /\ generateEmbedUrl "vidrock.net" "tt123" "tv" empty_env
     = Some "https://vidrock.net/tv/tt123".
Proof.
  split.
  - refine (proj1 (proj1 (generateEmbedUrl_type_handling "tt123" "anime"
                            empty_env) _)).
    discriminate.
  - refine (proj2 (proj2 (proj2 (proj2 (proj2 (proj2
              (generateEmbedUrl_type_handling "tt123" "tv" empty_env))))) _)).
    right; reflexivity.
Defined.

(** ** The handler *)

Section HandlerFacts.

Variables UpstreamResponse Data Rejection : Type.
Variable global_fetch : string -> Rejection + UpstreamResponse.
Variable response_json : UpstreamResponse -> Rejection + Data.

Local Abbreviation fetch := (Worker.fetch global_fetch response_json).
Local Abbreviation try_block :=
  (Worker.try_block global_fetch response_json).
Local Abbreviation Response := (Worker.Response Data).

Lemma fetch_past_guards (request : Request) (env : Env) :
  method request <> "OPTIONS" ->
  JS.truthy (TMDB_API_KEY env) = true ->
  fetch request env =
  let params := searchParams request in
  match Worker.switch (action params) params env with
  | Worker.Return r => Worker.Normal r
  | Worker.Break =>
      match try_block (tmdbApiUrl (action params) params
                         (JS.to_string (TMDB_API_KEY env))) with
      | Worker.Normal r => Worker.Normal r
      | Worker.Throw error => Worker.Normal (Worker.catch_block error)
      end
  end.
Proof.
  intros Hm Hk. unfold Worker.fetch.
  apply String.eqb_neq in Hm. rewrite Hm, Hk. reflexivity.
Qed.

Lemma switch_outbound (act : Action) (params : URLSearchParams.t)
      (env : Env) :
  outbound act = true -> Worker.switch (Data := Data) act params env = Worker.Break.
Proof. destruct act; simpl; congruence. Qed.

Lemma tmdbApiUrl_nonempty (act : Action) (params : URLSearchParams.t)
      (apiKey : string) :
  outbound act = true -> tmdbApiUrl act params apiKey <> "".
Proof. destruct act; simpl; discriminate. Qed.

(** The handler always completes with a response. *)
Lemma fetch_total (request : Request) (env : Env) :
  exists r : Response, fetch request env = Worker.Normal r.
Proof.
  unfold Worker.fetch.
  destruct (method request =? "OPTIONS"); [eauto|].
  destruct (negb (JS.truthy (TMDB_API_KEY env))); [eauto|].
  cbv zeta.
  destruct (Worker.switch _ _ _); [|eauto].
  destruct (try_block _); eauto.
Qed.

(** C2. A request that is not OPTIONS, handled without a key (unbound or
    empty), is answered 500 with the configuration error, whatever its
    query parameters -- also when they ask for getProviders or embed. *)
Theorem missing_key_is_500 (request : Request) (env : Env) :
  method request <> "OPTIONS" ->
  TMDB_API_KEY env = None \/ TMDB_API_KEY env = Some "" ->
  exists r : Response,
    fetch request env = Worker.Normal r
    /\ Worker.status r = 500
    /\ Worker.body r =
       Worker.BodyJson
         (JObject
            [("error",
              JString
                "Server configuration error: TMDB_API_KEY secret not set.")]).
Proof.
  intros Hm Hk. exists Worker.missingKeyResponse.
  unfold Worker.fetch.
  apply String.eqb_neq in Hm. rewrite Hm.
  rewrite (truthy_absent_or_empty _ Hk). repeat split.
Qed.

(** C3. A getProviders request and an embed request that lacks a provider
    or an imdb_id (absent, or present with an empty value) get the same
    response: status 200 and the four-entry provider list. *)
Theorem providers_and_incomplete_embed_agree
        (r1 r2 : Request) (env1 env2 : Env) :
  method r1 <> "OPTIONS" -> method r2 <> "OPTIONS" ->
  JS.truthy (TMDB_API_KEY env1) = true ->
  JS.truthy (TMDB_API_KEY env2) = true ->
  action (searchParams r1) = GetProviders ->
  action (searchParams r2) = Embed ->
  JS.truthy (URLSearchParams.get (searchParams r2) "provider") = false
  \/ JS.truthy (URLSearchParams.get (searchParams r2) "imdb_id") = false ->
  exists r : Response,
    fetch r1 env1 = Worker.Normal r
    /\ fetch r2 env2 = Worker.Normal r
    /\ Worker.status r = 200
    /\ Worker.body r =
       Worker.BodyJson (JObject [("providers", JArray videoProviderList)])
    /\ List.length videoProviderList = 4.
Proof.
  intros Hm1 Hm2 Hk1 Hk2 Ha1 Ha2 Hmiss.
  exists Worker.providersResponse.
  rewrite (fetch_past_guards r1 env1 Hm1 Hk1).
  rewrite (fetch_past_guards r2 env2 Hm2 Hk2).
  cbv zeta. rewrite Ha1, Ha2. cbn [Worker.switch].
  assert (Hand : JS.truthy (URLSearchParams.get (searchParams r2) "provider")
                 && JS.truthy (URLSearchParams.get (searchParams r2) "imdb_id")
                 = false).
  { destruct Hmiss as [-> | ->]; [reflexivity|apply andb_false_r]. }
  rewrite Hand. repeat split.
Qed.

(** C7. When the request is one of the six outbound actions and the
    outbound GET fails -- the call rejects, or the body does not parse as
    JSON -- the answer is 502 with the upstream error; and the handler
    completes with a response on every request. *)
Theorem upstream_failure_is_502 :
  (forall (request : Request) (env : Env),
      exists r : Response, fetch request env = Worker.Normal r)
  /\ (forall (request : Request) (env : Env),
        method request <> "OPTIONS" ->
        JS.truthy (TMDB_API_KEY env) = true ->
        outbound (action (searchParams request)) = true ->
        Worker.upstream_fails global_fetch response_json
          (tmdbApiUrl (action (searchParams request)) (searchParams request)
             (JS.to_string (TMDB_API_KEY env))) = true ->
        exists r : Response,
          fetch request env = Worker.Normal r
          /\ Worker.status r = 502
          /\ Worker.body r =
             Worker.BodyJson
               (JObject
                  [("error", JString "Failed to fetch data from TMDB API.")])).
Proof.
  split; [exact fetch_total|].
  intros request env Hm Hk Hout Hfail.
  exists Worker.upstreamFailureResponse.
  rewrite (fetch_past_guards request env Hm Hk). cbv zeta.
  rewrite (switch_outbound _ _ _ Hout).
  unfold Worker.try_block, Worker.upstream_fails in *.
  destruct (negb (JS.truthy _)); [repeat split|].
  destruct (global_fetch _) as [e|resp]; [repeat split|].
  destruct (response_json resp) as [e|d]; [repeat split|discriminate].
Qed.

(** C9. The requests that reach the outbound call are exactly those of the
    six outbound actions, and for them the URL is never empty, so the try
    block never throws the internal logic error. *)
Theorem outbound_url_is_set (request : Request) (env : Env) :
  let params := searchParams request in
  let url := tmdbApiUrl (action params) params
               (JS.to_string (TMDB_API_KEY env)) in
  (Worker.switch (Data := Data) (action params) params env = Worker.Break
   <-> outbound (action params) = true)
  /\ (outbound (action params) = true ->
      url <> ""
      /\ JS.truthy (Some url) = true
      /\ forall message,
          try_block url <> Worker.Throw (Worker.LogicError message)).
Proof.
  intros params url. split.
  - split; [|apply switch_outbound].
    destruct (action params); simpl; try reflexivity; try discriminate.
    destruct (_ && _); [|discriminate].
    destruct (generateEmbedUrl _ _ _ _); [|discriminate].
    destruct (negb _); discriminate.
  - intros Hout.
    assert (Hne : url <> "") by (apply tmdbApiUrl_nonempty; exact Hout).
    assert (Ht : JS.truthy (Some url) = true) by (apply nonempty_neqb, Hne).
    repeat split; try assumption.
    intros message. unfold Worker.try_block. rewrite Ht. cbn [negb].
    destruct (global_fetch url) as [e|resp]; [discriminate|].
    destruct (response_json resp); discriminate.
Qed.

(** Every response the [switch] returns by itself either carries the
    provider list or has no [providers] field at all. *)
Lemma switch_providers_field (act : Action) (params : URLSearchParams.t)
      (env : Env) (r : Response) (fs : list (string * json)) (v : json) :
  Worker.switch act params env = Worker.Return r ->
  Worker.body r = Worker.BodyJson (JObject fs) ->
  field fs "providers" = Some v ->
  v = JArray videoProviderList.
Proof.
  intros Hsw Hb Hf.
  assert (Hcases : r = Worker.providersResponse
                   \/ (exists u, r = Worker.embedUrlResponse u)
                   \/ r = Worker.invalidProviderResponse
                   \/ r = Worker.badRequestResponse).
  { destruct act; simpl in Hsw; try discriminate.
    - injection Hsw as <-. auto.
    - destruct (_ && _).
      + destruct (generateEmbedUrl _ _ _ _) as [u|].
        * destruct (negb _); injection Hsw as <-; eauto.
        * injection Hsw as <-. auto.
      + injection Hsw as <-. auto.
    - injection Hsw as <-. auto. }
  destruct Hcases as [-> | [[u ->] | [-> | ->]]];
    simpl in Hb; injection Hb as <-; simpl in Hf; congruence.
Qed.

(** C4 (amended). The provider list has exactly four entries, each an
    object with exactly the keys name, domain and sandbox (not sandboxed),
    holding a string, a string and a boolean; and it is never mutated while
    a request is handled: whatever the request, the configuration and the
    platform, a body that the worker builds with a [providers] field holds
    exactly that list.  (A relayed upstream payload is not built by the
    worker and is no part of the statement.) *)
Theorem provider_list_fixed :
  List.length videoProviderList = 4
  /\ Forall (fun e => record_shape descriptor_shape e = true)
            videoProviderList
  /\ forall (request : Request) (env : Env) (r : Response)
            (fs : list (string * json)) (v : json),
      fetch request env = Worker.Normal r ->
      Worker.body r = Worker.BodyJson (JObject fs) ->
      field fs "providers" = Some v ->
      v = JArray videoProviderList.
Proof.
  split; [reflexivity|]. split.
  { repeat constructor. }
  intros request env r fs v Hfetch Hb Hf.
  unfold Worker.fetch in Hfetch.
  destruct (method request =? "OPTIONS").
  { injection Hfetch as <-. discriminate Hb. }
  destruct (negb (JS.truthy (TMDB_API_KEY env))).
  { injection Hfetch as <-. simpl in Hb. injection Hb as <-.
    discriminate Hf. }
  cbv zeta in Hfetch.
  destruct (Worker.switch _ _ _) as [|r'] eqn:Hsw.
  - unfold Worker.try_block in Hfetch.
    destruct (negb (JS.truthy _)).
    { injection Hfetch as <-. simpl in Hb. injection Hb as <-.
      discriminate Hf. }
    destruct (global_fetch _) as [e|resp].
    { injection Hfetch as <-. simpl in Hb. injection Hb as <-.
      discriminate Hf. }
    destruct (response_json resp) as [e|d];
      injection Hfetch as <-; simpl in Hb; [|discriminate Hb].
    injection Hb as <-. discriminate Hf.
  - injection Hfetch as <-.
    exact (switch_providers_field _ _ _ _ _ _ Hsw Hb Hf).
Qed.

(** C6 (amended). generateEmbedUrl returns null for every provider that is
    not one of the four domains; and an embed request whose provider is a
    non-empty string outside the four, sent with a non-empty imdb_id, is
    answered 400 with the invalid-provider error. *)
Theorem unknown_provider_rejected :
  (forall (provider imdbId type : string) (env : Env),
      ~ In provider known_providers ->
      generateEmbedUrl provider imdbId type env = None)
  /\ (forall (request : Request) (env : Env) (provider imdbId : string),
        method request <> "OPTIONS" ->
        JS.truthy (TMDB_API_KEY env) = true ->
        action (searchParams request) = Embed ->
        URLSearchParams.get (searchParams request) "provider"
        = Some provider ->
        URLSearchParams.get (searchParams request) "imdb_id"
        = Some imdbId ->
        provider <> "" -> imdbId <> "" ->
        ~ In provider known_providers ->
        exists r : Response,
          fetch request env = Worker.Normal r
          /\ Worker.status r = 400
          /\ Worker.body r =
             Worker.BodyJson
               (JObject
                  [("error",
                    JString
                      "Invalid provider or unable to generate embed URL.")])).
Proof.
  split; [exact generateEmbedUrl_unknown|].
  intros request env provider imdbId Hm Hk Ha Hp Hi Hpne Hine Hnot.
  exists Worker.invalidProviderResponse.
  rewrite (fetch_past_guards request env Hm Hk). cbv zeta.
  rewrite Ha. cbn [Worker.switch]. rewrite Hp, Hi.
  cbn [JS.truthy JS.to_string].
  rewrite (nonempty_neqb _ Hpne), (nonempty_neqb _ Hine). cbn [andb].
  rewrite (generateEmbedUrl_unknown _ _ _ _ Hnot). repeat split.
Qed.

End HandlerFacts.

(** ** The popular branch *)


(** ** Concrete requests *)

(** A keyless getProviders request is answered 500. *)
Lemma missing_key_is_500_witness :
  exists r : Worker.Response unit,
    Worker.fetch Sample.offline Sample.not_json
      (Sample.GET [("action", "getProviders")]) empty_env = Worker.Normal r
    /\ Worker.status r = 500
    /\ Worker.body r =
       Worker.BodyJson
         (JObject
            [("error",
              JString
                "Server configuration error: TMDB_API_KEY secret not set.")]).
Proof.
  apply missing_key_is_500; [discriminate|left; reflexivity].
Defined.

(** [?action=getProviders] and [?action=embed&provider=vidsrc.cc] get the same
    answer. *)
Lemma providers_and_incomplete_embed_agree_witness :
  exists r : Worker.Response unit,
    Worker.fetch Sample.offline Sample.not_json
      (Sample.GET [("action", "getProviders")]) Sample.env = Worker.Normal r
    /\ Worker.fetch Sample.offline Sample.not_json
         (Sample.GET [("action", "embed"); ("provider", "vidsrc.cc")])
         Sample.env = Worker.Normal r
    /\ Worker.status r = 200
    /\ Worker.body r =
       Worker.BodyJson (JObject [("providers", JArray videoProviderList)])
    /\ List.length videoProviderList = 4.
Proof.
  apply providers_and_incomplete_embed_agree;
    try discriminate; try reflexivity.
  right; reflexivity.
Defined.

(** [?details=550] with the network down is answered 502. *)
Lemma upstream_failure_is_502_witness :
  exists r : Worker.Response unit,
    Worker.fetch Sample.offline Sample.not_json
      (Sample.GET [("details", "550")]) Sample.env = Worker.Normal r
    /\ Worker.status r = 502
    /\ Worker.body r =
       Worker.BodyJson
         (JObject [("error", JString "Failed to fetch data from TMDB API.")]).
Proof.
  apply (proj2 (upstream_failure_is_502 unit unit unit
                  Sample.offline Sample.not_json));
    [discriminate|reflexivity|reflexivity|reflexivity].
Defined.

(** The search URL for [?query=blade runner]. *)
Lemma outbound_url_is_set_witness :
  let url :=
    "https://api.themoviedb.org/3/search/multi?api_key=k3y&query=blade%20runner&language=en-US&page=1"
  in
  url <> ""
  /\ JS.truthy (Some url) = true
  /\ forall message,
      Worker.try_block (Data := unit) Sample.online Sample.not_json url
      <> Worker.Throw (Worker.LogicError message).
Proof.
  exact (proj2 (outbound_url_is_set unit unit unit Sample.online
                  Sample.not_json
                  (Sample.GET [("query", "blade runner")]) Sample.env)
           eq_refl).
Defined.

(** C4, as stated, fails: no entry of the list has a [sandboxed] key, so no
    entry has the shape the specification gives. *)
Lemma provider_list_has_no_sandboxed_key :
  forallb (fun e => negb (record_shape spec_descriptor_shape e))
          videoProviderList = true
  /\ ~ Forall (fun e => record_shape spec_descriptor_shape e = true)
              videoProviderList.
Proof.
  split; [reflexivity|].
  intros H. inversion H as [|e l He _]. discriminate He.
Qed.

Lemma provider_list_fixed_witness :
  Worker.fetch (Data := unit) Sample.offline Sample.not_json
    (Sample.GET [("action", "getProviders")]) Sample.env
  = Worker.Normal Worker.providersResponse
  /\ Worker.body (Data := unit) Worker.providersResponse
     = Worker.BodyJson (JObject [("providers", JArray videoProviderList)])
  /\ field [("providers", JArray videoProviderList)] "providers"
     = Some (JArray videoProviderList)
  /\ JArray videoProviderList = JArray videoProviderList.
Proof.
  split; [reflexivity|]. split; [reflexivity|]. split; [reflexivity|].
  exact (proj2 (proj2 (provider_list_fixed unit unit unit
                         Sample.offline Sample.not_json))
           (Sample.GET [("action", "getProviders")]) Sample.env
           Worker.providersResponse _ _ eq_refl eq_refl eq_refl).
Defined.

(** C6, as stated, fails at the empty provider: [?action=embed&provider=&imdb_id=tt123]
    is an embed request whose provider is not one of the four domains, and it
    is answered 200 with the provider list, not 400. *)
Lemma empty_provider_embed_gets_provider_list :
  let request :=
    Sample.GET [("action", "embed"); ("provider", ""); ("imdb_id", "tt123")]
  in
  ~ In "" known_providers
  /\ action (searchParams request) = Embed
  /\ URLSearchParams.get (searchParams request) "provider" = Some ""
  /\ URLSearchParams.get (searchParams request) "imdb_id" = Some "tt123"
  /\ generateEmbedUrl "" "tt123" "movie" Sample.env = None
  /\ Worker.fetch (Data := unit) Sample.offline Sample.not_json request
       Sample.env
     = Worker.Normal Worker.providersResponse
  /\ Worker.status (Data := unit) Worker.providersResponse = 200
  /\ Worker.status (Data := unit) Worker.providersResponse <> 400.
Proof.
  cbv zeta. repeat split; try discriminate.
  simpl. intros [H | [H | [H | [H | []]]]]; discriminate H.
Qed.

(** [?action=embed&provider=unknown.domain&imdb_id=tt123] is answered 400. *)
Lemma unknown_provider_rejected_witness :
  exists r : Worker.Response unit,
    Worker.fetch Sample.offline Sample.not_json
      (Sample.GET [("action", "embed"); ("provider", "unknown.domain");
                    ("imdb_id", "tt123")]) Sample.env = Worker.Normal r
    /\ Worker.status r = 400
    /\ Worker.body r =
       Worker.BodyJson
         (JObject
            [("error",
              JString "Invalid provider or unable to generate embed URL.")]).
Proof.
  apply (proj2 (unknown_provider_rejected unit unit unit
                  Sample.offline Sample.not_json))
    with (provider := "unknown.domain") (imdbId := "tt123");
    try discriminate; try reflexivity.
  simpl. intros [H | [H | [H | [H | []]]]]; discriminate H.
Defined.



(** * Further properties of the worker *)

(** ** Percent-encoding of the search term *)


Lemma chars_append (a b : string) :
  list_ascii_of_string (a ++ b)
  = (list_ascii_of_string a ++ list_ascii_of_string b)%list.
Proof. induction a as [|x a IH]; simpl; [reflexivity|now rewrite IH]. Qed.

Lemma append_inv_head (a b c : string) : a ++ b = a ++ c -> b = c.
Proof. induction a as [|x a IH]; simpl; intros H; [exact H|]. injection H. exact IH. Qed.

Lemma append_inv_tail (a b c : string) : a ++ c = b ++ c -> a = b.
Proof.
  intros H. apply (f_equal list_ascii_of_string) in H.
  rewrite !chars_append in H. apply app_inv_tail in H.
  apply (f_equal string_of_list_ascii) in H.
  now rewrite !string_of_list_ascii_of_string in H.
Qed.

Lemma hex_digit_inj (a b : nat) :
  a < 16 -> b < 16 -> JS.hex_digit a = JS.hex_digit b -> a = b.
Proof.
  intros Ha Hb.
  do 16 (destruct a as [|a]; [
    do 16 (destruct b as [|b]; [first [reflexivity | discriminate]|]); lia |]).
  lia.
Qed.

Lemma percent_byte_inj (c d : ascii) :
  JS.percent_byte c = JS.percent_byte d -> c = d.
Proof.
  unfold JS.percent_byte. cbv zeta.
  pose proof (nat_ascii_bounded c) as Hc.
  pose proof (nat_ascii_bounded d) as Hd.
  pose proof (Nat.div_mod_eq (nat_of_ascii c) 16) as Ec.
  pose proof (Nat.div_mod_eq (nat_of_ascii d) 16) as Ed.
  pose proof (Nat.mod_upper_bound (nat_of_ascii c) 16 ltac:(lia)) as Mc.
  pose proof (Nat.mod_upper_bound (nat_of_ascii d) 16 ltac:(lia)) as Md.
  generalize dependent (nat_of_ascii c / 16).
  generalize dependent (nat_of_ascii c mod 16).
  generalize dependent (nat_of_ascii d / 16).
  generalize dependent (nat_of_ascii d mod 16).
  intros ld Md hd Ed lc Mc hc Ec H.
  assert (Hhi : JS.hex_digit hc = JS.hex_digit hd) by congruence.
  assert (Hlo : JS.hex_digit lc = JS.hex_digit ld) by congruence.
  apply hex_digit_inj in Hhi; [|lia..].
  apply hex_digit_inj in Hlo; [|lia..].
  rewrite <- (ascii_nat_embedding c), <- (ascii_nat_embedding d).
  f_equal. lia.
Qed.

(** What one byte becomes. *)
Lemma percent_byte_chars (c : ascii) :
  forallb (fun x => JS.uri_unreserved x || Ascii.eqb x "%")
          (list_ascii_of_string (JS.percent_byte c)) = true.
Proof. destruct c as [[] [] [] [] [] [] [] []]; reflexivity. Qed.

Lemma percent_byte_split (c : ascii) :
  exists h l, JS.percent_byte c = String "%" (String h (String l "")).
Proof. unfold JS.percent_byte. eauto. Qed.

Lemma percent_is_reserved : JS.uri_unreserved "%" = false.
Proof. reflexivity. Qed.

Lemma encode_length (s : string) :
  String.length s <= String.length (JS.encodeURIComponent_str s).
Proof.
  induction s as [|c s IH]; simpl; [lia|].
  destruct (JS.uri_unreserved c); simpl; lia.
Qed.

(** Distinct strings have distinct encodings. *)
Lemma encodeURIComponent_injective (s1 s2 : string) :
  JS.encodeURIComponent_str s1 = JS.encodeURIComponent_str s2 <-> s1 = s2.
Proof.
  split; [|now intros ->].
  revert s2. induction s1 as [|c1 r1 IH]; intros [|c2 r2]; simpl.
  - reflexivity.
  - destruct (JS.uri_unreserved c2); discriminate.
  - destruct (JS.uri_unreserved c1); discriminate.
  - destruct (JS.uri_unreserved c1) eqn:U1, (JS.uri_unreserved c2) eqn:U2.
    + simpl. intros H. injection H as -> H. now rewrite (IH _ H).
    + destruct (percent_byte_split c2) as (h & l & ->).
      simpl. intros H. injection H as -> _.
      rewrite percent_is_reserved in U1. discriminate.
    + destruct (percent_byte_split c1) as (h & l & ->).
      simpl. intros H. injection H as <- _.
      rewrite percent_is_reserved in U2. discriminate.
    + destruct (percent_byte_split c1) as (h1 & l1 & E1).
      destruct (percent_byte_split c2) as (h2 & l2 & E2).
      rewrite E1, E2. simpl. intros H. injection H as -> -> Hr.
      rewrite <- E2 in E1.
      now rewrite (percent_byte_inj _ _ E1), (IH _ Hr).
Qed.

(** The encoding consists of unreserved bytes and percent signs only, so
    it contains none of the URL delimiters. *)
Lemma encodeURIComponent_charset (s : string) (c : ascii) :
  In c (list_ascii_of_string (JS.encodeURIComponent_str s)) ->
  (JS.uri_unreserved c = true \/ c = "%"%char)
  /\ ~ In c (list_ascii_of_string "&=#?/+ ").
Proof.
  intros Hin.
  assert (H : JS.uri_unreserved c || Ascii.eqb c "%" = true).
  { induction s as [|x s IH]; simpl in Hin; [contradiction|].
    rewrite chars_append in Hin. apply in_app_or in Hin.
    destruct Hin as [Hin | Hin]; [|exact (IH Hin)].
    destruct (JS.uri_unreserved x) eqn:Ux.
    - simpl in Hin. destruct Hin as [<- | []]. now rewrite Ux.
    - pose proof (percent_byte_chars x) as Hall.
      rewrite forallb_forall in Hall. exact (Hall c Hin). }
  split.
  - apply orb_true_iff in H. destruct H as [H | H]; [now left|right].
    now apply Ascii.eqb_eq.
  - simpl. intros [<- | [<- | [<- | [<- | [<- | [<- | [<- | []]]]]]]];
      discriminate H.
Qed.

(** A string is left as it is exactly when all its bytes are unreserved. *)
Lemma encodeURIComponent_fixes_unreserved (s : string) :
  JS.encodeURIComponent_str s = s
  <-> forallb JS.uri_unreserved (list_ascii_of_string s) = true.
Proof.
  induction s as [|c s IH]; [simpl; tauto|].
  cbn [JS.encodeURIComponent_str list_ascii_of_string forallb].
  destruct (JS.uri_unreserved c) eqn:U.
  - cbn [append andb]. rewrite <- IH.
    split; [intros H; now injection H|now intros ->].
  - destruct (percent_byte_split c) as (h & l & ->).
    cbn [append andb]. split; [|discriminate].
    intros H. injection H as _ H.
    apply (f_equal String.length) in H. cbn [String.length] in H.
    pose proof (encode_length s). lia.
Qed.

(** ** The search URL *)

(** X1. Whatever the search term, the [query] value placed in the outbound
    search URL holds only unreserved bytes and percent signs: the term can
    bring no delimiter of its own into the URL. *)
Theorem search_url_escapes_query
        (params : URLSearchParams.t) (apiKey : string) (c : ascii) :
  let q := JS.encodeURIComponent (URLSearchParams.get params "query") in
  tmdbApiUrl Search params apiKey
  = "https://api.themoviedb.org/3/search/multi?api_key=" ++ apiKey
      ++ "&query=" ++ q ++ "&language=en-US&page=1"
  /\ (In c (list_ascii_of_string q) ->
      (JS.uri_unreserved c = true \/ c = "%"%char)
      /\ ~ In c (list_ascii_of_string "&=#?/+ ")).
Proof.
  intros q. split; [reflexivity|].
  apply encodeURIComponent_charset.
Qed.

(** X2. For a fixed key, two search requests produce the same outbound URL
    only if they carry the same search term. *)
Theorem search_url_injective
        (params1 params2 : URLSearchParams.t) (apiKey : string) :
  action params1 = Search -> action params2 = Search ->
  tmdbApiUrl (action params1) params1 apiKey
  = tmdbApiUrl (action params2) params2 apiKey ->
  URLSearchParams.get params1 "query" = URLSearchParams.get params2 "query".
Proof.
  intros A1 A2. rewrite A1, A2. cbn [tmdbApiUrl]. intros H.
  assert (H1 : URLSearchParams.has params1 "query" = true).
  { unfold action in A1.
    repeat match type of A1 with
           | (if ?c then _ else _) = _ => destruct c; try discriminate A1
           end; reflexivity. }
  assert (H2 : URLSearchParams.has params2 "query" = true).
  { unfold action in A2.
    repeat match type of A2 with
           | (if ?c then _ else _) = _ => destruct c; try discriminate A2
           end; reflexivity. }
  destruct (get_of_has _ _ H1) as [q1 E1].
  destruct (get_of_has _ _ H2) as [q2 E2].
  rewrite E1, E2 in *.
  apply (append_inv_head
           "https://api.themoviedb.org/3/search/multi?api_key=") in H.
  apply append_inv_head in H.
  apply (append_inv_head "&query=") in H.
  apply append_inv_tail in H.
  unfold JS.encodeURIComponent in H. cbn [JS.to_string] in H.
  apply (proj1 (encodeURIComponent_injective _ _)) in H. now rewrite H.
Qed.

Lemma search_url_injective_witness :
  URLSearchParams.get [("query", "alien"); ("page", "3")] "query"
  = URLSearchParams.get [("type", "tv"); ("query", "alien")] "query".
Proof.
  apply (search_url_injective _ _ "k3y"); reflexivity.
Defined.

(** X3. The search term appears in the outbound URL as it was sent exactly
    when all its bytes are unreserved (letters, digits, [-_.!~*'()]). *)
Theorem search_url_verbatim_iff
        (params : URLSearchParams.t) (apiKey term : string) :
  URLSearchParams.get params "query" = Some term ->
  tmdbApiUrl Search params apiKey
  = "https://api.themoviedb.org/3/search/multi?api_key=" ++ apiKey
      ++ "&query=" ++ term ++ "&language=en-US&page=1"
  <-> forallb JS.uri_unreserved (list_ascii_of_string term) = true.
Proof.
  intros E. cbn [tmdbApiUrl]. rewrite E.
  unfold JS.encodeURIComponent. cbn [JS.to_string].
  rewrite <- encodeURIComponent_fixes_unreserved. split.
  - intros H.
    apply (append_inv_head
             "https://api.themoviedb.org/3/search/multi?api_key=") in H.
    apply append_inv_head in H.
    apply (append_inv_head "&query=") in H.
    now apply append_inv_tail in H.
  - now intros ->.
Qed.

Lemma search_url_verbatim_iff_witness :
  tmdbApiUrl Search [("query", "alien")] "k3y"
  = "https://api.themoviedb.org/3/search/multi?api_key=k3y&query=alien&language=en-US&page=1"
  <-> forallb JS.uri_unreserved (list_ascii_of_string "alien") = true.
Proof.
  apply (search_url_verbatim_iff [("query", "alien")] "k3y" "alien").
  reflexivity.
Defined.

Lemma search_url_escapes_query_witness :
  (JS.uri_unreserved "2" = true \/ "2"%char = "%"%char)
  /\ ~ In "2"%char (list_ascii_of_string "&=#?/+ ").
Proof.
  apply (proj2 (search_url_escapes_query [("query", "a b")] "k3y" "2"%char)).
  simpl. tauto.
Defined.

(** ** Embed URLs and their configuration *)

Lemma or_else_falsy (o : option string) (d : string) :
  JS.truthy o = false -> JS.or_else o d = d.
Proof.
  destruct o as [s|]; simpl; [|reflexivity].
  destruct (s =? ""); [reflexivity|discriminate].
Qed.

Lemma known_provider_cases (provider : string) :
  In provider known_providers ->
  provider = "vidsrc.cc" \/ provider = "vidrock.net"
  \/ provider = "vidsrc.me" \/ provider = "vidfast.pro".
Proof. simpl. intuition auto. Qed.

Lemma generateEmbedUrl_known (provider imdbId type : string) (env : Env) :
  In provider known_providers ->
  exists embedUrl,
    generateEmbedUrl provider imdbId type env = Some embedUrl
    /\ embedUrl <> "".
Proof.
  intros Hin.
  assert (Hbase : forall o d r, d <> "" -> JS.or_else o d ++ r <> "").
  { intros o d r Hd. pose proof (or_else_nonempty o d Hd) as Hne.
    destruct (JS.or_else o d); [congruence|discriminate]. }
  destruct (known_provider_cases _ Hin) as [-> | [-> | [-> | ->]]].
  - rewrite generateEmbedUrl_vidsrc_cc. cbv zeta. eexists. split; [reflexivity|].
    destruct (type =? "tv"); apply Hbase; discriminate.
  - rewrite generateEmbedUrl_vidrock_net. cbv zeta. eexists. split; [reflexivity|].
    destruct (type =? "tv"); apply Hbase; discriminate.
  - rewrite generateEmbedUrl_vidsrc_me. eexists. split; [reflexivity|].
    apply Hbase; discriminate.
  - rewrite generateEmbedUrl_vidfast_pro. eexists. split; [reflexivity|].
    apply Hbase; discriminate.
Qed.

(** X4. generateEmbedUrl yields a URL exactly for the four known domains,
    under every configuration, and that URL is never the empty string. *)
Theorem generateEmbedUrl_some_iff_known
        (provider imdbId type : string) (env : Env) :
  (exists embedUrl,
      generateEmbedUrl provider imdbId type env = Some embedUrl
      /\ embedUrl <> "")
  <-> In provider known_providers.
Proof.
  split; [|apply generateEmbedUrl_known].
  intros (u & Hu & _).
  destruct (in_dec string_dec provider known_providers) as [Hin | Hnot];
    [exact Hin|].
  rewrite (generateEmbedUrl_unknown _ _ _ _ Hnot) in Hu. discriminate.
Qed.

(** X5. An override bound to the empty string counts as unbound: a
    configuration whose overrides are all unbound or empty generates the
    same URLs as the empty configuration. *)
Theorem empty_overrides_are_defaults
        (provider imdbId type : string) (env : Env) :
  JS.truthy (VIDSRC_CC_URL env) = false ->
  JS.truthy (VIDROCK_NET_URL env) = false ->
  JS.truthy (VIDSRC_ME_URL env) = false ->
  JS.truthy (VIDFAST_PRO_URL env) = false ->
  generateEmbedUrl provider imdbId type env
  = generateEmbedUrl provider imdbId type empty_env.
Proof.
  intros H1 H2 H3 H4.
  assert (Hcfg : providerConfigs env provider
                 = providerConfigs empty_env provider).
  { unfold providerConfigs.
    rewrite (or_else_falsy _ _ H1), (or_else_falsy _ _ H2),
      (or_else_falsy _ _ H3), (or_else_falsy _ _ H4). reflexivity. }
  unfold generateEmbedUrl. rewrite Hcfg. reflexivity.
Qed.

Lemma empty_overrides_are_defaults_witness :
  generateEmbedUrl "vidsrc.me" "tt123" "tv"
    (mkEnv (Some "k3y") (Some "") None (Some "") None)
  = generateEmbedUrl "vidsrc.me" "tt123" "tv" empty_env.
Proof.
  apply empty_overrides_are_defaults; reflexivity.
Defined.

(** X6. The URL generated for a provider depends on that provider's own
    override only: the API key and the other three overrides have no part
    in it. *)
Theorem generateEmbedUrl_reads_own_override
        (imdbId type : string) (env env' : Env) :
  (VIDSRC_CC_URL env = VIDSRC_CC_URL env' ->
   generateEmbedUrl "vidsrc.cc" imdbId type env
   = generateEmbedUrl "vidsrc.cc" imdbId type env')
  /\ (VIDROCK_NET_URL env = VIDROCK_NET_URL env' ->
      generateEmbedUrl "vidrock.net" imdbId type env
      = generateEmbedUrl "vidrock.net" imdbId type env')
  /\ (VIDSRC_ME_URL env = VIDSRC_ME_URL env' ->
      generateEmbedUrl "vidsrc.me" imdbId type env
      = generateEmbedUrl "vidsrc.me" imdbId type env')
  /\ (VIDFAST_PRO_URL env = VIDFAST_PRO_URL env' ->
      generateEmbedUrl "vidfast.pro" imdbId type env
      = generateEmbedUrl "vidfast.pro" imdbId type env').
Proof.
  rewrite !generateEmbedUrl_vidsrc_cc, !generateEmbedUrl_vidrock_net,
    !generateEmbedUrl_vidsrc_me, !generateEmbedUrl_vidfast_pro.
  repeat split; intros ->; reflexivity.
Qed.

Lemma generateEmbedUrl_reads_own_override_witness :
  generateEmbedUrl "vidsrc.cc" "tt123" "movie"
    (mkEnv (Some "k3y") (Some "https://mirror.example/embed/") None None None)
  = generateEmbedUrl "vidsrc.cc" "tt123" "movie"
      (mkEnv None (Some "https://mirror.example/embed/")
             (Some "https://rock.example/") None (Some "x")).
Proof.
  apply (proj1 (generateEmbedUrl_reads_own_override "tt123" "movie" _ _)).
  reflexivity.
Defined.

(** ** The handler as a decision table *)

Lemma generateEmbedUrl_nonempty (provider imdbId type u : string) (env : Env) :
  generateEmbedUrl provider imdbId type env = Some u -> negb (u =? "") = true.
Proof.
  intros Hu.
  destruct (in_dec string_dec provider known_providers) as [Hin | Hnot].
  - destruct (generateEmbedUrl_known provider imdbId type env Hin)
      as (u' & Hu' & Hne).
    rewrite Hu in Hu'. injection Hu' as <-. apply nonempty_neqb, Hne.
  - rewrite (generateEmbedUrl_unknown _ _ _ _ Hnot) in Hu. discriminate.
Qed.

Section HandlerTable.

Variables UpstreamResponse Data Rejection : Type.
Variable global_fetch : string -> Rejection + UpstreamResponse.
Variable response_json : UpstreamResponse -> Rejection + Data.

Local Abbreviation fetch := (Worker.fetch global_fetch response_json).
Local Abbreviation Response := (Worker.Response Data).

(** The outcome of the [try]/[catch] around the outbound call, for a URL
    that is set. *)
Lemma try_catch_outcome (url : string) :
  url <> "" ->
  match Worker.try_block global_fetch response_json url with
  | Worker.Normal r => Worker.Normal r
  | Worker.Throw error => Worker.Normal (Worker.catch_block error)
  end
  = Worker.Normal (Rejection := Rejection)
      match global_fetch url with
      | inl _ => Worker.upstreamFailureResponse
      | inr tmdbResponse =>
          match response_json tmdbResponse with
          | inl _ => Worker.upstreamFailureResponse
          | inr data => Worker.mkResponse 200 jsonHeaders (Worker.BodyData data)
          end
      end.
Proof.
  intros Hne. unfold Worker.try_block.
  assert (Ht : JS.truthy (Some url) = true) by (apply nonempty_neqb, Hne).
  rewrite Ht. cbn [negb].
  destruct (global_fetch url) as [e|resp]; [reflexivity|].
  destruct (response_json resp); reflexivity.
Qed.

(** Every path through the handler, in one table. *)
Lemma fetch_table (request : Request) (env : Env) :
  let params := searchParams request in
  let url := tmdbApiUrl (action params) params
               (JS.to_string (TMDB_API_KEY env)) in
  fetch request env
  = Worker.Normal
      (if method request =? "OPTIONS" then
         Worker.mkResponse 200 corsHeaders Worker.BodyNull
       else if negb (JS.truthy (TMDB_API_KEY env)) then
         Worker.missingKeyResponse
       else
         match action params with
         | ActError => Worker.badRequestResponse
         | GetProviders => Worker.providersResponse
         | Embed =>
             if JS.truthy (URLSearchParams.get params "provider")
                && JS.truthy (URLSearchParams.get params "imdb_id")
             then
               match generateEmbedUrl
                       (JS.to_string (URLSearchParams.get params "provider"))
                       (JS.to_string (URLSearchParams.get params "imdb_id"))
                       (mediaType params) env with
               | Some embedUrl => Worker.embedUrlResponse embedUrl
               | None => Worker.invalidProviderResponse
               end
             else Worker.providersResponse
         | _ =>
             match global_fetch url with
             | inl _ => Worker.upstreamFailureResponse
             | inr tmdbResponse =>
                 match response_json tmdbResponse with
                 | inl _ => Worker.upstreamFailureResponse
                 | inr data =>
                     Worker.mkResponse 200 jsonHeaders (Worker.BodyData data)
                 end
             end
         end).
Proof.
  intros params url. unfold Worker.fetch.
  destruct (method request =? "OPTIONS"); [reflexivity|].
  destruct (negb (JS.truthy (TMDB_API_KEY env))); [reflexivity|].
  cbv zeta. fold params. fold url.
  assert (Hout : outbound (action params) = true ->
                 Worker.switch (Data := Data) (action params) params env
                 = Worker.Break /\ url <> "").
  { intros H. split; [apply switch_outbound, H|apply tmdbApiUrl_nonempty, H]. }
  destruct (action params) eqn:Ha;
    try (destruct (Hout eq_refl) as [-> Hne];
         rewrite (try_catch_outcome url Hne); reflexivity);
    cbn [Worker.switch]; try reflexivity.
  destruct (_ && _); [|reflexivity].
  destruct (generateEmbedUrl _ _ _ _) as [u|] eqn:Hu; [|reflexivity].
  now rewrite (generateEmbedUrl_nonempty _ _ _ _ _ Hu).
Qed.

End HandlerTable.

(** ** Responses: headers and status codes *)

Section HandlerBehaviour.

Variables UpstreamResponse Data Rejection : Type.
Variable global_fetch : string -> Rejection + UpstreamResponse.
Variable response_json : UpstreamResponse -> Rejection + Data.

Local Abbreviation fetch := (Worker.fetch global_fetch response_json).
Local Abbreviation Response := (Worker.Response Data).
Local Abbreviation outbound_url request env :=
  (tmdbApiUrl (action (searchParams request)) (searchParams request)
     (JS.to_string (TMDB_API_KEY env))).

Ltac by_table request env H :=
  let T := fresh "T" in
  pose proof (fetch_table _ _ _ global_fetch response_json request env) as T;
  cbv zeta in T; rewrite T in H; clear T; injection H as <-.

Ltac split_table :=
  repeat match goal with
         | |- context [if ?c then _ else _] => destruct c eqn:?
         | |- context [match action ?p with _ => _ end] =>
             destruct (action p) eqn:?
         | |- context [match generateEmbedUrl ?a ?b ?c ?d with _ => _ end] =>
             destruct (generateEmbedUrl a b c d) eqn:?
         | |- context [match global_fetch ?u with _ => _ end] =>
             destruct (global_fetch u) eqn:?
         | |- context [match response_json ?u with _ => _ end] =>
             destruct (response_json u) eqn:?
         end.

(** X7. Every response carries the four CORS headers.  The preflight answer
    (given even without a key) is 200 with nothing else and no body; every
    other response, error or not, has a body and is declared as JSON. *)
Theorem cors_headers_on_every_response
        (request : Request) (env : Env) (r : Response) :
  fetch request env = Worker.Normal r ->
  (forall h, In h corsHeaders -> In h (Worker.headers r))
  /\ (method request = "OPTIONS" ->
      Worker.headers r = corsHeaders /\ Worker.body r = Worker.BodyNull
      /\ Worker.status r = 200)
  /\ (method request <> "OPTIONS" ->
      Worker.headers r
      = (corsHeaders ++ [("Content-Type", "application/json")])%list
      /\ Worker.body r <> Worker.BodyNull).
Proof.
  intros H. by_table request env H.
  destruct (String.eqb_spec (method request) "OPTIONS") as [Hm | Hm].
  - repeat split; try tauto; contradiction.
  - assert (Hh : forall hs, hs = jsonHeaders ->
                 forall h, In h corsHeaders -> In h hs).
    { intros hs -> h Hin. unfold jsonHeaders. apply in_or_app. now left. }
    split_table; (split; [apply Hh; reflexivity|]);
      (split; [contradiction|]); intros _; split;
      first [reflexivity | discriminate].
Qed.

(** X8. The handler answers with one of four status codes. *)
Theorem status_codes (request : Request) (env : Env) (r : Response) :
  fetch request env = Worker.Normal r ->
  In (Worker.status r) [200; 400; 500; 502].
Proof.
  intros H. by_table request env H. split_table; simpl; tauto.
Qed.

(** X9. The answer is 500 exactly when a request other than OPTIONS meets a
    missing or empty key. *)
Theorem status_500_iff (request : Request) (env : Env) (r : Response) :
  fetch request env = Worker.Normal r ->
  (Worker.status r = 500
   <-> method request <> "OPTIONS" /\ JS.truthy (TMDB_API_KEY env) = false).
Proof.
  intros H. by_table request env H.
  destruct (String.eqb_spec (method request) "OPTIONS") as [Hm | Hm].
  - simpl. split; [discriminate|tauto].
  - destruct (JS.truthy (TMDB_API_KEY env)); cbn [negb].
    + split_table; simpl; (split; [discriminate|intros [_ Hk]; discriminate Hk]).
    + simpl. tauto.
Qed.

(** X10. The answer is 502 exactly when the request is one of the six
    outbound actions, the key is set, and the outbound call fails. *)
Theorem status_502_iff (request : Request) (env : Env) (r : Response) :
  fetch request env = Worker.Normal r ->
  (Worker.status r = 502
   <-> method request <> "OPTIONS"
       /\ JS.truthy (TMDB_API_KEY env) = true
       /\ outbound (action (searchParams request)) = true
       /\ Worker.upstream_fails global_fetch response_json
            (outbound_url request env) = true).
Proof.
  intros H. by_table request env H. unfold Worker.upstream_fails.
  destruct (String.eqb_spec (method request) "OPTIONS") as [Hm | Hm].
  - simpl. split; [discriminate|tauto].
  - destruct (JS.truthy (TMDB_API_KEY env)); cbn [negb].
    + split_table; simpl;
        (split; [try discriminate; intros _; repeat split; assumption
                |intros (_ & _ & Ho & Hf);
                 first [reflexivity | discriminate Ho | discriminate Hf]]).
    + simpl. split; [discriminate|intros (_ & Hk & _); discriminate Hk].
Qed.

(** X11. The answer is 400 exactly in two cases: the parameters select no
    action, or an embed request names, with a non-empty imdb_id, a non-empty
    provider that is not one of the four domains. *)
Theorem status_400_iff (request : Request) (env : Env) (r : Response) :
  fetch request env = Worker.Normal r ->
  (Worker.status r = 400
   <-> method request <> "OPTIONS"
       /\ JS.truthy (TMDB_API_KEY env) = true
       /\ (action (searchParams request) = ActError
           \/ (action (searchParams request) = Embed
               /\ exists provider imdbId,
                   URLSearchParams.get (searchParams request) "provider"
                   = Some provider
                   /\ URLSearchParams.get (searchParams request) "imdb_id"
                      = Some imdbId
                   /\ provider <> "" /\ imdbId <> ""
                   /\ ~ In provider known_providers))).
Proof.
  intros H. by_table request env H.
  destruct (String.eqb_spec (method request) "OPTIONS") as [Hm | Hm].
  { simpl. split; [discriminate|tauto]. }
  destruct (JS.truthy (TMDB_API_KEY env)); cbn [negb].
  2:{ simpl. split; [discriminate|intros (_ & Hk & _); discriminate Hk]. }
  set (params := searchParams request).
  destruct (action params) eqn:Ha;
    try (split_table; simpl;
         (split; [discriminate
                 |intros (_ & _ & [Hx | [Hx _]]); discriminate Hx])).
  - simpl. split; [intros _; repeat split; auto|reflexivity].
  - destruct (URLSearchParams.get params "provider") as [p|] eqn:Hp;
      [|simpl; split; [discriminate|];
        intros (_ & _ & [Hx | (_ & p & i & Hx & _)]); discriminate Hx].
    destruct (URLSearchParams.get params "imdb_id") as [i|] eqn:Hi;
      [|simpl; rewrite andb_false_r; simpl; split; [discriminate|];
        intros (_ & _ & [Hx | (_ & p' & i & _ & Hx & _)]); discriminate Hx].
    cbn [JS.truthy JS.to_string].
    destruct (String.eqb_spec p "") as [-> | Hpne]; cbn [negb andb].
    { simpl. split; [discriminate|].
      intros (_ & _ & [Hx | (_ & p' & i' & Hx & _ & Hne & _)]);
        [discriminate Hx|]. injection Hx as <-. now elim Hne. }
    destruct (String.eqb_spec i "") as [-> | Hine]; cbn [negb].
    { simpl. split; [discriminate|].
      intros (_ & _ & [Hx | (_ & p' & i' & _ & Hx & _ & Hne & _)]);
        [discriminate Hx|]. injection Hx as <-. now elim Hne. }
    destruct (in_dec string_dec p known_providers) as [Hin | Hnot].
    + destruct (generateEmbedUrl_known p i (mediaType params) env Hin)
        as (u & -> & _).
      simpl. split; [discriminate|].
      intros (_ & _ & [Hx | (_ & p' & i' & Hx & _ & _ & _ & Hn)]);
        [discriminate Hx|]. injection Hx as <-. contradiction.
    + rewrite (generateEmbedUrl_unknown _ _ _ _ Hnot). simpl.
      split; [|reflexivity]. intros _. repeat split; auto.
      right. split; [reflexivity|]. exists p, i. auto.
Qed.

(** X12. A response carries an upstream payload exactly when the request is
    an outbound action with the key set, the outbound call to the computed
    URL resolves and its body parses to that payload; the status is then
    200. *)
Theorem upstream_payload_relayed
        (request : Request) (env : Env) (r : Response) (data : Data) :
  fetch request env = Worker.Normal r ->
  (Worker.body r = Worker.BodyData data
   <-> method request <> "OPTIONS"
       /\ JS.truthy (TMDB_API_KEY env) = true
       /\ outbound (action (searchParams request)) = true
       /\ exists tmdbResponse,
           global_fetch (outbound_url request env) = inr tmdbResponse
           /\ response_json tmdbResponse = inr data)
  /\ (Worker.body r = Worker.BodyData data -> Worker.status r = 200).
Proof.
  intros H. by_table request env H.
  destruct (String.eqb_spec (method request) "OPTIONS") as [Hm | Hm].
  { simpl. split; [|discriminate]. split; [discriminate|tauto]. }
  destruct (JS.truthy (TMDB_API_KEY env)); cbn [negb].
  2:{ simpl. split; [|discriminate].
      split; [discriminate|intros (_ & Hk & _); discriminate Hk]. }
  set (params := searchParams request).
  destruct (action params) eqn:Ha;
    try (split_table; simpl; (split; [|discriminate]);
         (split; [discriminate|intros (_ & _ & Hx & _); discriminate Hx]));
    (destruct (global_fetch _) as [e|resp] eqn:Hf;
     [simpl; split; [|discriminate]; split; [discriminate|];
      intros (_ & _ & _ & resp & Hx & _); discriminate Hx|]);
    (destruct (response_json resp) as [e|d] eqn:Hj;
     [simpl; split; [|discriminate]; split; [discriminate|];
      intros (_ & _ & _ & resp' & Hx & Hy); injection Hx as <-;
      rewrite Hj in Hy; discriminate Hy|]);
    simpl; (split; [|reflexivity]); split.
  all: try (intros Hb; injection Hb as ->; repeat split; auto;
            exists resp; auto).
  all: intros (_ & _ & _ & resp' & Hx & Hy); injection Hx as <-;
    rewrite Hj in Hy; injection Hy as ->; reflexivity.
Qed.

(** X13. Through the router the media type of an embed URL is always
    normalised: a complete embed request for a known provider is answered
    200 with the URL generated for tv when [type] is tv, and for movie in
    every other case, for all four providers. *)
Theorem embed_request_normalises_type
        (request : Request) (env : Env) (provider imdbId : string) :
  method request <> "OPTIONS" ->
  JS.truthy (TMDB_API_KEY env) = true ->
  action (searchParams request) = Embed ->
  URLSearchParams.get (searchParams request) "provider" = Some provider ->
  URLSearchParams.get (searchParams request) "imdb_id" = Some imdbId ->
  In provider known_providers ->
  imdbId <> "" ->
  exists (r : Response) (embedUrl : string),
    fetch request env = Worker.Normal r
    /\ Worker.status r = 200
    /\ Worker.body r
       = Worker.BodyJson (JObject [("embedUrl", JString embedUrl)])
    /\ generateEmbedUrl provider imdbId
         (if JS.strict_eq (URLSearchParams.get (searchParams request) "type")
                          "tv"
          then "tv" else "movie") env = Some embedUrl
    /\ (URLSearchParams.get (searchParams request) "type" <> Some "tv" ->
        generateEmbedUrl provider imdbId "movie" env = Some embedUrl).
Proof.
  intros Hm Hk Ha Hp Hi Hin Hine.
  pose proof (fetch_table _ _ _ global_fetch response_json request env) as T.
  cbv zeta in T. rewrite T. clear T.
  apply String.eqb_neq in Hm. rewrite Hm, Hk, Ha, Hp, Hi.
  cbn [negb JS.truthy JS.to_string].
  assert (Hpne : provider <> "").
  { intros ->. simpl in Hin. intuition discriminate. }
  rewrite (nonempty_neqb _ Hpne), (nonempty_neqb _ Hine). cbn [andb].
  destruct (generateEmbedUrl_known provider imdbId
              (mediaType (searchParams request)) env Hin) as (u & Hu & _).
  rewrite Hu. exists (Worker.embedUrlResponse u), u.
  repeat split; try exact Hu.
  intros Hty. unfold mediaType in Hu.
  destruct (URLSearchParams.get (searchParams request) "type") as [ty|];
    [|exact Hu].
  cbn [JS.strict_eq] in Hu.
  destruct (String.eqb_spec ty "tv") as [Heq | _]; [|exact Hu].
  subst ty. now elim Hty.
Qed.

(** X14. Apart from OPTIONS the method plays no part: the same query under
    any two other methods gets the same response. *)
Theorem method_is_not_examined
        (m1 m2 : string) (params : URLSearchParams.t) (env : Env) :
  m1 <> "OPTIONS" -> m2 <> "OPTIONS" ->
  fetch (mkRequest m1 params) env = fetch (mkRequest m2 params) env.
Proof.
  intros H1 H2. unfold Worker.fetch. cbn [method searchParams].
  apply String.eqb_neq in H1, H2. now rewrite H1, H2.
Qed.

End HandlerBehaviour.

(** ** What the handler reads *)

(** X15. The network is consulted at one URL only: two platforms whose
    [fetch] agree on the URL computed for the request give the same
    response, whatever they do elsewhere. *)
Theorem fetch_reads_one_url
        {UpstreamResponse Data Rejection : Type}
        (global_fetch global_fetch' : string -> Rejection + UpstreamResponse)
        (response_json : UpstreamResponse -> Rejection + Data)
        (request : Request) (env : Env) :
  global_fetch
    (tmdbApiUrl (action (searchParams request)) (searchParams request)
       (JS.to_string (TMDB_API_KEY env)))
  = global_fetch'
      (tmdbApiUrl (action (searchParams request)) (searchParams request)
         (JS.to_string (TMDB_API_KEY env))) ->
  Worker.fetch global_fetch response_json request env
  = Worker.fetch global_fetch' response_json request env.
Proof.
  intros H.
  pose proof (fetch_table _ _ _ global_fetch response_json request env) as T.
  pose proof (fetch_table _ _ _ global_fetch' response_json request env) as T'.
  cbv zeta in T, T'. rewrite T, T', H. reflexivity.
Qed.

Lemma providerConfigs_ext (env env' : Env) (provider : string) :
  VIDSRC_CC_URL env = VIDSRC_CC_URL env' ->
  VIDROCK_NET_URL env = VIDROCK_NET_URL env' ->
  VIDSRC_ME_URL env = VIDSRC_ME_URL env' ->
  VIDFAST_PRO_URL env = VIDFAST_PRO_URL env' ->
  providerConfigs env provider = providerConfigs env' provider.
Proof. unfold providerConfigs. now intros -> -> -> ->. Qed.

(** X16. A request that is not one of the six outbound actions is answered
    without the network and without looking into the key: on any two
    platforms, and under any two configurations that both have a key (or
    both lack one) and agree on the provider overrides, the response is the
    same. *)
Theorem local_answers_ignore_platform_and_key
        {U1 U2 Data R1 R2 : Type}
        (fetch1 : string -> R1 + U1) (json1 : U1 -> R1 + Data)
        (fetch2 : string -> R2 + U2) (json2 : U2 -> R2 + Data)
        (request : Request) (env1 env2 : Env) :
  outbound (action (searchParams request)) = false ->
  JS.truthy (TMDB_API_KEY env1) = JS.truthy (TMDB_API_KEY env2) ->
  VIDSRC_CC_URL env1 = VIDSRC_CC_URL env2 ->
  VIDROCK_NET_URL env1 = VIDROCK_NET_URL env2 ->
  VIDSRC_ME_URL env1 = VIDSRC_ME_URL env2 ->
  VIDFAST_PRO_URL env1 = VIDFAST_PRO_URL env2 ->
  exists r : Worker.Response Data,
    Worker.fetch fetch1 json1 request env1 = Worker.Normal r
    /\ Worker.fetch fetch2 json2 request env2 = Worker.Normal r.
Proof.
  intros Hout Hk H1 H2 H3 H4.
  pose proof (fetch_table _ _ _ fetch1 json1 request env1) as T1.
  pose proof (fetch_table _ _ _ fetch2 json2 request env2) as T2.
  cbv zeta in T1, T2. rewrite T1, T2, Hk. clear T1 T2.
  assert (Hgen : forall p i t,
             generateEmbedUrl p i t env1 = generateEmbedUrl p i t env2).
  { intros p i t. unfold generateEmbedUrl.
    now rewrite (providerConfigs_ext env1 env2 p H1 H2 H3 H4). }
  rewrite !Hgen.
  destruct (action (searchParams request)); try discriminate Hout;
    eexists; split; reflexivity.
Qed.





(** ** Which requests are local *)

(** X18. A request is an embed request exactly when [action] is embed and
    none of details, credits, popular, query and tmdb_id is present; it is a
    getProviders request exactly when [action] is getProviders and none of
    those five nor imdb_id is present; and it selects no action exactly when
    none of the six is present and [action] is neither of the two. *)
Theorem local_actions_iff (params : URLSearchParams.t) :
  let has := URLSearchParams.has params in
  let act := URLSearchParams.get params "action" in
  let no_metadata :=
    has "details" = false /\ has "credits" = false /\ has "popular" = false
    /\ has "query" = false /\ has "tmdb_id" = false in
  (action params = Embed <-> act = Some "embed" /\ no_metadata)
  /\ (action params = GetProviders
      <-> act = Some "getProviders" /\ no_metadata /\ has "imdb_id" = false)
  /\ (action params = ActError
      <-> act <> Some "embed" /\ act <> Some "getProviders"
          /\ no_metadata /\ has "imdb_id" = false).
Proof.
  cbv zeta. unfold action.
  destruct (URLSearchParams.has params "details"),
    (URLSearchParams.has params "credits"),
    (URLSearchParams.has params "popular"),
    (URLSearchParams.has params "query"),
    (URLSearchParams.has params "imdb_id"),
    (URLSearchParams.has params "tmdb_id");
    cbn [andb];
    (destruct (URLSearchParams.get params "action") as [a|];
     [cbn [JS.strict_eq];
      destruct (String.eqb_spec a "embed") as [-> | He];
      [|destruct (String.eqb_spec a "getProviders") as [-> | Hg]]|]);
    cbn [JS.strict_eq String.eqb Ascii.eqb Bool.eqb negb];
    repeat split; intros; try discriminate; try tauto;
    try congruence;
    intuition (try discriminate; try congruence).
Qed.

(** ** More concrete requests *)

Lemma cors_headers_on_every_response_witness :
  Worker.headers (Data := unit) Worker.upstreamFailureResponse
  = (corsHeaders ++ [("Content-Type", "application/json")])%list
  /\ Worker.body (Data := unit) Worker.upstreamFailureResponse
     <> Worker.BodyNull.
Proof.
  refine (proj2 (proj2 (cors_headers_on_every_response unit unit unit
                          Sample.offline Sample.not_json
                          (Sample.GET [("credits", "550")]) Sample.env
                          Worker.upstreamFailureResponse eq_refl)) _).
  discriminate.
Defined.

Lemma status_codes_witness :
  In (Worker.status (Data := unit) Worker.badRequestResponse)
     [200; 400; 500; 502].
Proof.
  exact (status_codes unit unit unit Sample.offline Sample.not_json
           (Sample.GET [("id", "550")]) Sample.env
           Worker.badRequestResponse eq_refl).
Defined.

Lemma status_500_iff_witness :
  Worker.status (Data := unit) Worker.missingKeyResponse = 500
  <-> "HEAD" <> "OPTIONS" /\ JS.truthy (Some "") = false.
Proof.
  exact (status_500_iff unit unit unit Sample.offline Sample.not_json
           (mkRequest "HEAD" [("query", "dune")])
           (mkEnv (Some "") None None None None)
           Worker.missingKeyResponse eq_refl).
Defined.

Lemma status_502_iff_witness :
  Worker.status (Data := unit) Worker.upstreamFailureResponse = 502
  <-> "GET" <> "OPTIONS"
      /\ JS.truthy (Some "k3y") = true
      /\ outbound (action [("tmdb_id", "603")]) = true
      /\ Worker.upstream_fails Sample.online Sample.not_json
           "https://api.themoviedb.org/3/movie/603/external_ids?api_key=k3y"
         = true.
Proof.
  exact (status_502_iff unit unit unit Sample.online Sample.not_json
           (Sample.GET [("tmdb_id", "603")]) Sample.env
           Worker.upstreamFailureResponse eq_refl).
Defined.

Lemma status_400_iff_witness :
  Worker.status (Data := unit) Worker.invalidProviderResponse = 400.
Proof.
  refine (proj2 (status_400_iff unit unit unit Sample.offline Sample.not_json
                   (Sample.GET [("action", "embed"); ("provider", "toString");
                                ("imdb_id", "tt123")]) Sample.env
                   Worker.invalidProviderResponse eq_refl) _).
  split; [discriminate|]. split; [reflexivity|]. right.
  split; [reflexivity|]. exists "toString", "tt123".
  repeat split; try discriminate.
  simpl. intros [H | [H | [H | [H | []]]]]; discriminate H.
Defined.

Lemma upstream_payload_relayed_witness :
  Worker.status (Worker.mkResponse 200 jsonHeaders (Worker.BodyData tt)) = 200.
Proof.
  exact (proj2 (upstream_payload_relayed unit unit unit
                  Sample.online Sample.parsed
                  (Sample.GET [("details", "550"); ("type", "tv")]) Sample.env
                  (Worker.mkResponse 200 jsonHeaders (Worker.BodyData tt)) tt
                  eq_refl) eq_refl).
Defined.

Lemma embed_request_normalises_type_witness :
  exists (r : Worker.Response unit) (embedUrl : string),
    Worker.fetch Sample.offline Sample.not_json
      (Sample.GET [("action", "embed"); ("provider", "vidsrc.me");
                   ("imdb_id", "tt123"); ("type", "anime")]) Sample.env
    = Worker.Normal r
    /\ Worker.status r = 200
    /\ Worker.body r
       = Worker.BodyJson (JObject [("embedUrl", JString embedUrl)])
    /\ generateEmbedUrl "vidsrc.me" "tt123" "movie" Sample.env = Some embedUrl
    /\ (Some "anime" <> Some "tv" ->
        generateEmbedUrl "vidsrc.me" "tt123" "movie" Sample.env
        = Some embedUrl).
Proof.
  apply (embed_request_normalises_type unit unit unit
           Sample.offline Sample.not_json
           (Sample.GET [("action", "embed"); ("provider", "vidsrc.me");
                        ("imdb_id", "tt123"); ("type", "anime")]) Sample.env
           "vidsrc.me" "tt123");
    try discriminate; try reflexivity.
  simpl. tauto.
Defined.

Lemma method_is_not_examined_witness :
  Worker.fetch Sample.offline Sample.not_json
    (mkRequest "POST" [("action", "getProviders")]) Sample.env
  = Worker.fetch Sample.offline Sample.not_json
      (mkRequest "GET" [("action", "getProviders")]) Sample.env.
Proof.
  apply method_is_not_examined; discriminate.
Defined.

Lemma fetch_reads_one_url_witness :
  Worker.fetch Sample.online Sample.parsed
    (Sample.GET [("imdb_id", "tt0133093")]) Sample.env
  = Worker.fetch
      (fun url =>
         if url =? "https://api.themoviedb.org/3/find/tt0133093?api_key=k3y&external_source=imdb_id"
         then inr tt else inl tt)
      Sample.parsed
      (Sample.GET [("imdb_id", "tt0133093")]) Sample.env.
Proof.
  apply fetch_reads_one_url. reflexivity.
Defined.

Lemma local_answers_ignore_platform_and_key_witness :
  exists r : Worker.Response unit,
    Worker.fetch Sample.offline Sample.not_json
      (Sample.GET [("action", "embed"); ("provider", "vidfast.pro");
                   ("imdb_id", "tt123")]) Sample.env = Worker.Normal r
    /\ Worker.fetch Sample.online Sample.parsed
         (Sample.GET [("action", "embed"); ("provider", "vidfast.pro");
                      ("imdb_id", "tt123")])
         (mkEnv (Some "another") None None None None) = Worker.Normal r.
Proof.
  apply local_answers_ignore_platform_and_key; reflexivity.
Defined.

